(** * The qpSWIFT adapter of qpsolvers ([qpsolvers/solvers/qpswift_.py])

    A shallow embedding of [qpswift_solve_qp] and the properties of its
    contract: routing on the presence of the constraint blocks, the reserved
    option keys, the translation of the backend's result, and the effects on
    the caller's option dictionary.

    Python objects are modelled with a store of dictionaries: a dictionary is
    a location of the store, so that the dictionary the caller hands in, the
    one the adapter writes to and the one the backend receives are one and
    the same object.  The native solver [qpSWIFT.run] and the two numpy
    operations that Python could dispatch to are outside this file; they are
    the fields of [externals]. *)

From Stdlib Require Import ZArith String Floats.
From stdpp Require Import base gmap strings list fin_maps.

(** ** Python objects *)

(** A location of the store: the identity of a dictionary object. *)
Definition loc := positive.

(** Exceptions.  [NotImplementedError] is the only one the adapter raises
    itself; [KeyError] and [TypeError] come from subscripting; [OtherError]
    stands for whatever an external library raises. *)
Inductive exn : Type :=
| NotImplementedError (msg : string)
| KeyError (key : string)
| TypeError
| OtherError (class : string).

(** How a computation ends: with a value or with a raised exception. *)
Inductive outcome (A : Type) : Type :=
| Return (a : A)
| Raise (e : exn).
Arguments Return {A} a.
Arguments Raise {A} e.

(** The keys and messages the source spells out. *)
Definition OUTPUT : string := "OUTPUT".
Definition VERBOSE : string := "VERBOSE".
Definition basicInfo : string := "basicInfo".
Definition ExitFlag : string := "ExitFlag".
Definition sol : string := "sol".
Definition opts_kw : string := "opts".
Definition warm_start_note : string :=
  "qpSWIFT: note that warm-start values ignored by wrapper".
Definition wip_message : string :=
  "QP without inequality constraints is still WIP for qpSWIFT".

(** Values.  numpy arrays are opaque: the adapter only passes them on. *)
Inductive value (ndarray : Type) : Type :=
| VNone
| VBool (b : bool)
| VInt (n : Z)
| VFloat (x : float)
| VStr (s : string)
| VArray (a : ndarray)
| VRef (l : loc).
Arguments VNone {ndarray}.
Arguments VBool {ndarray} b.
Arguments VInt {ndarray} n.
Arguments VFloat {ndarray} x.
Arguments VStr {ndarray} s.
Arguments VArray {ndarray} a.
Arguments VRef {ndarray} l.

(** The contents of a dictionary, and the store: the contents of every
    dictionary object.  The store is read with the total lookup [st !!! d]:
    a reference always designates an object in Python, and a location the
    store does not hold reads as a dictionary without entries. *)
Abbreviation dict ndarray := (gmap string (value ndarray)).
Abbreviation store ndarray := (gmap loc (gmap string (value ndarray))).

Section Adapter.

Context {ndarray : Type}.

Abbreviation value := (value ndarray).
Abbreviation store := (store ndarray).

(** What the adapter does that can be seen from outside: a line printed on
    standard output, and a call of [qpSWIFT.run] with its positional and
    keyword arguments, together with the store as it is when the call is
    made (so that the contents of a dictionary argument can be read off). *)
Inductive event : Type :=
| Printed (line : string)
| Call (args : list value) (kwargs : list (string * value)) (st : store).

(** The code this file does not contain. *)
Record externals : Type := {
  (** [qpSWIFT.run] applied to positional and keyword arguments; it may
      read and write the store. *)
  qpSWIFT_run : list value -> list (string * value) -> store ->
                store * outcome value;
  (** [a[key]] for an array [a] and a string [key]. *)
  np_getitem : ndarray -> string -> outcome value;
  (** the truth value of [a != 0] for an array [a]. *)
  np_ne_zero : ndarray -> outcome bool
}.

Context (E : externals).

(** ** The monad of the adapter: store, trace and exceptions *)

Definition M (A : Type) : Type := store -> store * list event * outcome A.

Definition ret {A} (a : A) : M A := fun st => (st, [], Return a).

Definition raise {A} (e : exn) : M A := fun st => (st, [], Raise e).

Definition bind {A B} (m : M A) (k : A -> M B) : M B :=
  fun st =>
    match m st with
    | (st1, t1, Return a) =>
        match k a st1 with
        | (st2, t2, r) => (st2, t1 ++ t2, r)
        end
    | (st1, t1, Raise e) => (st1, t1, Raise e)
    end.

Notation "x <- m ;; k" := (bind m (fun x => k))
  (at level 100, m at next level, right associativity).
Notation "m ;;; k" := (bind m (fun _ => k))
  (at level 100, right associativity).

(** [print(line)] *)
Definition print (line : string) : M unit :=
  fun st => (st, [Printed line], Return tt).

(** [{}]: a new, empty dictionary, at a location the store does not hold. *)
Definition new_dict : M loc :=
  fun st => let l := fresh (dom st) in (<[l := ∅]> st, [], Return l).

(** [d[key] = v] for a dictionary [d]: the object itself is updated, for
    everyone who holds [d]. *)
Definition setitem (d : loc) (key : string) (v : value) : M unit :=
  fun st => (<[d := <[key := v]> (st !!! d)]> st, [], Return tt).

(** The value of [o[key]] for any object [o] and a string [key], read in
    the store [st]: a dictionary holds the key or the lookup is a
    [KeyError]; an array answers for itself; nothing else can be
    subscripted. *)
Definition subscript (st : store) (o : value) (key : string) : outcome value :=
  match o with
  | VRef d =>
      match (st !!! d) !! key with
      | Some v => Return v
      | None => Raise (KeyError key)
      end
  | VArray a => np_getitem E a key
  | VNone | VBool _ | VInt _ | VFloat _ | VStr _ => Raise TypeError
  end.

(** The truth value of [o != 0]: numbers compare by value ([False] is 0,
    [True] is 1, and -0.0 is 0.0), an array answers for itself, and any
    other object differs from 0. *)
Definition differs_from_zero (o : value) : outcome bool :=
  match o with
  | VInt n => Return (negb (n =? 0)%Z)
  | VBool b => Return b
  | VFloat x => Return (negb (PrimFloat.eqb x 0%float))
  | VArray a => np_ne_zero E a
  | VNone | VStr _ | VRef _ => Return true
  end.

(** [o[key]] *)
Definition getitem (o : value) (key : string) : M value :=
  fun st => (st, [], subscript st o key).

(** [o != 0], as the condition of an [if] *)
Definition ne_zero (o : value) : M bool :=
  fun st => (st, [], differs_from_zero o).

(** [qpSWIFT.run] applied to positional and keyword arguments *)
Definition run (args : list value) (kwargs : list (string * value)) : M value :=
  fun st =>
    match qpSWIFT_run E args kwargs st with
    | (st1, r) => (st1, [Call args kwargs st], r)
    end.

(** ** The adapter *)

Definition qpswift_solve_qp
    (P q : ndarray) (G h A b initvals : option ndarray)
    (verbose : bool) (opts : option loc) : M value :=
  (match initvals with
   | Some _ => print warm_start_note
   | None => ret tt
   end) ;;;
  _ <- new_dict ;;
  opts <- (match opts with
           | None => new_dict
           | Some d => ret d
           end) ;;
  setitem opts OUTPUT (VInt 1) ;;;
  setitem opts VERBOSE (VInt (if verbose then 1 else 0)) ;;;
  result <- (match G, h with
             | Some G, Some h =>
                 match A, b with
                 | Some A, Some b =>
                     run [VArray q; VArray h; VArray P; VArray G;
                          VArray A; VArray b; VRef opts] []
                 | _, _ =>
                     run [VArray q; VArray h; VArray P; VArray G]
                         [(opts_kw, VRef opts)]
                 end
             | _, _ => raise (NotImplementedError wip_message)
             end) ;;
  info <- getitem result basicInfo ;;
  exit_flag <- getitem info ExitFlag ;;
  failed <- ne_zero exit_flag ;;
  if failed : bool then ret VNone else getitem result sol.

End Adapter.

Arguments event : clear implicits.
Arguments externals : clear implicits.

(** ** Reading a run of the adapter *)

Section Observations.
Context {ndarray A : Type}.
Implicit Type x : store ndarray * list (event ndarray) * outcome A.

Definition final_store x : store ndarray := x.1.1.
Definition trace x : list (event ndarray) := x.1.2.
Definition result x : outcome A := x.2.

End Observations.

Section Replies.
Context {ndarray : Type}.

(** The calls of the backend among the events of a trace. *)
Definition is_call (e : event ndarray) : bool :=
  match e with
  | Call _ _ _ => true
  | Printed _ => false
  end.

Definition calls (t : list (event ndarray)) : list (event ndarray) :=
  List.filter is_call t.

(** What the adapter prints for a warm-start vector. *)
Definition notice (initvals : option ndarray) : list (event ndarray) :=
  match initvals with
  | Some _ => [Printed warm_start_note]
  | None => []
  end.

(** The option dictionary the caller means: the contents of the one handed
    in, or no entry at all. *)
Definition caller_options (st : store ndarray) (opts : option loc)
  : dict ndarray :=
  match opts with
  | Some d => st !!! d
  | None => ∅
  end.

(** The reserved entries written over a dictionary. *)
Definition with_reserved (verbose : bool) (d : dict ndarray) : dict ndarray :=
  <[VERBOSE := VInt (if verbose then 1 else 0)]> (<[OUTPUT := VInt 1]> d).

Context (E : externals ndarray).

(** The exit flag of a backend result: [res["basicInfo"]["ExitFlag"]]. *)
Definition exit_flag (st : store ndarray) (res : value ndarray)
  : outcome (value ndarray) :=
  match subscript E st res basicInfo with
  | Return info => subscript E st info ExitFlag
  | Raise e => Raise e
  end.

End Replies.

(** ** The run of the adapter, step by step *)

Section Steps.
Context {ndarray : Type} (E : externals ndarray).
Implicit Types (st : store ndarray) (opts : option loc).

(** The dictionary object that receives the reserved keys: the caller's, or
    the second new object of the call (the first one is the initial value of
    [result]). *)
Definition options_object st opts : loc :=
  match opts with
  | Some d => d
  | None => fresh (dom (<[fresh (dom st) := ∅]> st))
  end.

(** The store once the reserved keys are written. *)
Definition prepared st (verbose : bool) opts : store ndarray :=
  let st0 := <[fresh (dom st) := ∅]> st in
  let o := options_object st opts in
  let st1 := match opts with Some _ => st0 | None => <[o := ∅]> st0 end in
  <[o := with_reserved verbose (st1 !!! o)]> st1.

(** The positional and keyword arguments of the backend call. *)
Definition call_args (P q G h : ndarray) (A b : option ndarray) (o : loc)
  : list (value ndarray) * list (string * value ndarray) :=
  match A, b with
  | Some A, Some b =>
      ([VArray q; VArray h; VArray P; VArray G; VArray A; VArray b; VRef o], [])
  | _, _ =>
      ([VArray q; VArray h; VArray P; VArray G], [(opts_kw, VRef o)])
  end.

(** What the adapter makes of a backend result. *)
Definition translated st (res : value ndarray) : outcome (value ndarray) :=
  match exit_flag E st res with
  | Return flag =>
      match differs_from_zero E flag with
      | Return true => Return VNone
      | Return false => subscript E st res sol
      | Raise e => Raise e
      end
  | Raise e => Raise e
  end.

End Steps.

(** ** A concrete setting, for examples *)

Module Demo.

(** Arrays as rows of floats. *)
Definition array : Type := list (list float).

Definition P : array := [[2; 0]; [0; 2]]%float.
Definition q : array := [[-2; -5]]%float.
Definition G : array := [[1; 0]]%float.
Definition h : array := [[1]]%float.
Definition A : array := [[1; 1]]%float.
Definition b : array := [[3]]%float.
Definition x0 : array := [[0; 0]]%float.
Definition x : array := [[1; 2.5]]%float.

Definition MAXITER : string := "MAXITER".

(** A backend that answers every call with the exit flag [flag] and the
    solution [x], in two new dictionaries. *)
Definition answer (flag : value array) (args : list (value array))
    (kwargs : list (string * value array)) (st : store array)
  : store array * outcome (value array) :=
  let info := fresh (dom st) in
  let st1 := <[info := {[ExitFlag := flag]}]> st in
  let res := fresh (dom st1) in
  (<[res := <[sol := VArray x]> {[basicInfo := VRef info]}]> st1,
   Return (VRef res)).

(** Plain arrays: no fields to subscript, and no truth value for a
    comparison of more than one element. *)
Definition numpy_getitem (a : array) (key : string) : outcome (value array) :=
  Raise (OtherError "IndexError").
Definition numpy_ne_zero (a : array) : outcome bool :=
  match a with
  | [[v]] => Return (negb (PrimFloat.eqb v 0%float))
  | _ => Raise (OtherError "ValueError")
  end.

Definition backend (flag : value array) : externals array :=
  {| qpSWIFT_run := answer flag;
     np_getitem := numpy_getitem;
     np_ne_zero := numpy_ne_zero |}.

(** A store with one dictionary, [{"MAXITER": 30, "OUTPUT": 2}], at 1. *)
Definition caller_store : store array :=
  {[ 1%positive := <[OUTPUT := VInt 2]> {[MAXITER := VInt 30]} ]}.

(** The call the adapter makes for [P], [q], [G], [h] alone, from the empty
    store: its arguments and the store at the call. *)
Definition args : list (value array) :=
  [VArray q; VArray h; VArray P; VArray G].
Definition kwargs : list (string * value array) :=
  [(opts_kw, VRef 2%positive)].
Definition call_store : store array :=
  {[ 1%positive := ∅;
     2%positive := <[VERBOSE := VInt 0]> {[OUTPUT := VInt 1]} ]}.

(** The store the backend leaves when it answers that call with [flag]. *)
Definition reply_store (flag : value array) : store array :=
  <[ 4%positive := <[sol := VArray x]> {[basicInfo := VRef 3%positive]} ]>
    (<[ 3%positive := {[ExitFlag := flag]} ]> call_store).

(** Three runs: the backend succeeds; the backend reports that it reached
    its iteration limit; there is no [G], a warm-start vector, and the
    caller's dictionary as options. *)
Definition solved :=
  qpswift_solve_qp (backend (VInt 0))
    P q (Some G) (Some h) None None None false None ∅.
Definition failed :=
  qpswift_solve_qp (backend (VInt 2))
    P q (Some G) (Some h) None None None false None ∅.
Definition refused :=
  qpswift_solve_qp (backend (VInt 0))
    P q None (Some h) None None (Some x0) true (Some 1%positive) caller_store.

(** A backend that answers every call as [reply] says. *)
Definition replying
    (reply : store array -> store array * outcome (value array))
  : externals array :=
  {| qpSWIFT_run := fun _ _ st => reply st;
     np_getitem := numpy_getitem;
     np_ne_zero := numpy_ne_zero |}.

(** Replies out of the ordinary: an exception; [None]; an empty dictionary;
    a result whose ["basicInfo"] has no exit flag; a result with the exit
    flag 0 and no solution. *)
Definition rejects (st : store array) : store array * outcome (value array) :=
  (st, Raise (OtherError "ValueError")).
Definition nothing (st : store array) : store array * outcome (value array) :=
  (st, Return VNone).
Definition bare (st : store array) : store array * outcome (value array) :=
  let res := fresh (dom st) in (<[res := ∅]> st, Return (VRef res)).
Definition with_info (info : dict array) (st : store array)
  : store array * outcome (value array) :=
  let i := fresh (dom st) in
  let st1 := <[i := info]> st in
  let res := fresh (dom st1) in
  (<[res := {[basicInfo := VRef i]}]> st1, Return (VRef res)).
Definition flagless := with_info ∅.
Definition unsolved := with_info {[ExitFlag := VInt 0]}.

(** The run for [P], [q], [G], [h] alone, from the empty store, with the
    backend answering by [reply]. *)
Definition run_with reply :=
  qpswift_solve_qp (replying reply)
    P q (Some G) (Some h) None None None false None ∅.

(** The caller's store with a second dictionary, at 5. *)
Definition two_dicts : store array :=
  <[ 5%positive := {[MAXITER := VInt 7]} ]> caller_store.

(** A call with the caller's dictionary as options, in that store. *)
Definition kept :=
  qpswift_solve_qp (backend (VInt 0))
    P q (Some G) (Some h) (Some A) (Some b) None true (Some 1%positive)
    two_dicts.

End Demo.


(** ** How the adapter runs *)

Section Proofs.
Context {ndarray : Type} (E : externals ndarray).
Implicit Types (st : store ndarray) (opts : option loc).

Lemma solve_without_inequalities P q G h A b initvals verbose opts st :
  G = None ∨ h = None →
  qpswift_solve_qp E P q G h A b initvals verbose opts st =
  (prepared st verbose opts, notice initvals,
   Raise (NotImplementedError wip_message)).
Proof.
  intros HGh.
  assert (match G, h with
          | Some G, Some h => None
          | _, _ => Some tt
          end = Some tt) as Hm.
  { destruct HGh; subst; [|destruct G]; done. }
  destruct G as [g|], h as [hv|]; try discriminate Hm;
    destruct initvals, opts;
    cbv beta iota zeta delta
      [qpswift_solve_qp bind print ret raise new_dict setitem
       prepared options_object notice with_reserved];
    rewrite ?lookup_total_insert_eq, ?insert_insert_eq; reflexivity.
Qed.

Lemma solve_with_inequalities P q g hv A b initvals verbose opts st :
  qpswift_solve_qp E P q (Some g) (Some hv) A b initvals verbose opts st =
  let stc := prepared st verbose opts in
  let c := call_args P q g hv A b (options_object st opts) in
  match qpSWIFT_run E c.1 c.2 stc with
  | (st1, reply) =>
      (st1, notice initvals ++ [Call c.1 c.2 stc],
       match reply with
       | Return res => translated E st1 res
       | Raise e => Raise e
       end)
  end.
Proof.
  assert (∃ c, c = call_args P q g hv A b (options_object st opts)) as [c Hc]
    by eauto.
  assert (∃ x, x = qpSWIFT_run E c.1 c.2 (prepared st verbose opts))
    as [[st1 reply] Hx] by eauto.
  cbv zeta. rewrite <- Hc, <- Hx. revert Hx. rewrite Hc. clear Hc.
  destruct initvals, opts, A, b;
    cbv beta iota zeta delta
      [qpswift_solve_qp bind print ret raise new_dict setitem run getitem
       ne_zero prepared options_object notice with_reserved call_args
       translated exit_flag fst snd];
    rewrite ?lookup_total_insert_eq, ?insert_insert_eq;
    intros <-;
    destruct reply as [res|e]; try reflexivity;
    cbv beta iota;
    destruct (subscript E st1 res basicInfo) as [info|e]; try reflexivity;
    destruct (subscript E st1 info ExitFlag) as [flag|e]; try reflexivity;
    destruct (differs_from_zero E flag) as [[]|e]; try reflexivity;
    destruct (subscript E st1 res sol); reflexivity.
Qed.

Lemma new_dict_keeps_contents st d :
  (<[fresh (dom st) := ∅]> st : store ndarray) !!! d = st !!! d.
Proof.
  destruct (decide (fresh (dom st) = d)) as [<-|Hne].
  - rewrite lookup_total_insert_eq, lookup_total_alt.
    by rewrite (not_elem_of_dom_1 st _ (is_fresh (dom st))).
  - by rewrite lookup_total_insert_ne.
Qed.

Lemma prepared_options st verbose opts :
  prepared st verbose opts !!! options_object st opts =
  with_reserved verbose (caller_options st opts).
Proof.
  unfold prepared. cbv zeta. rewrite lookup_total_insert_eq.
  destruct opts as [d|]; simpl.
  - by rewrite new_dict_keeps_contents.
  - by rewrite lookup_total_insert_eq.
Qed.

Lemma no_call_in_notice (initvals : option ndarray) args kwargs stc :
  ¬ In (Call args kwargs stc) (notice initvals).
Proof. destruct initvals; simpl; intuition discriminate. Qed.

Lemma calls_notice (initvals : option ndarray) t :
  calls (notice initvals ++ t) = calls t.
Proof. by destruct initvals. Qed.

(** A call found in the trace is the call of the adapter, and the adapter
    ends in the store the backend leaves, with the translation of the
    backend's reply. *)
Lemma call_in_trace P q G h A b initvals verbose opts st args kwargs stc :
  let x := qpswift_solve_qp E P q G h A b initvals verbose opts st in
  In (Call args kwargs stc) (trace x) →
  final_store x = (qpSWIFT_run E args kwargs stc).1 ∧
  result x = match qpSWIFT_run E args kwargs stc with
             | (st1, Return res) => translated E st1 res
             | (_, Raise e) => Raise e
             end.
Proof.
  cbv zeta. destruct G as [g|], h as [hv|].
  2-4: rewrite solve_without_inequalities by auto;
       intros []%no_call_in_notice.
  rewrite solve_with_inequalities. cbv zeta.
  destruct (qpSWIFT_run E _ _ (prepared st verbose opts))
    as [st1 reply] eqn:Hrun.
  unfold trace, final_store, result. simpl.
  intros [[]%no_call_in_notice|[Hc|[]]]%in_app_or.
  injection Hc as <- <- <-. rewrite Hrun. by destruct reply.
Qed.

End Proofs.

(** ** The contract of the adapter *)

Section Contract.
Context {ndarray : Type} (E : externals ndarray).
Implicit Types (P q : ndarray) (G h A b initvals : option ndarray).
Implicit Types (st : store ndarray) (opts : option loc) (verbose : bool).

(** C1, as the code has it.  An input with neither [G] nor [h] raises
    [NotImplementedError], whatever the other arguments, the store and the
    backend are, and this is the only error the adapter raises of its own:
    it is raised exactly when [G] or [h] is missing, before any backend
    call.  With [G] and [h] present the backend is called once and nothing
    is caught: an exception of the backend, and the failure of reading
    ["basicInfo"], ["ExitFlag"] or ["sol"] in its result or of comparing
    the flag with 0, reach the caller as they are; an exit flag that
    differs from 0 gives [None]. *)
Theorem errors_of_the_adapter P q G h A b initvals verbose opts st :
  let x := qpswift_solve_qp E P q G h A b initvals verbose opts st in
  result (qpswift_solve_qp E P q None None A b initvals verbose opts st)
    = Raise (NotImplementedError wip_message) ∧
  (((G = None ∨ h = None) ∧ calls (trace x) = [] ∧
    result x = Raise (NotImplementedError wip_message)) ∨
   (∃ args kwargs stc,
      G ≠ None ∧ h ≠ None ∧ calls (trace x) = [Call args kwargs stc] ∧
      result x =
        match qpSWIFT_run E args kwargs stc with
        | (_, Raise e) => Raise e
        | (st1, Return res) =>
            match exit_flag E st1 res with
            | Raise e => Raise e
            | Return flag =>
                match differs_from_zero E flag with
                | Raise e => Raise e
                | Return true => Return VNone
                | Return false => subscript E st1 res sol
                end
            end
        end)).
Proof.
  cbv zeta. split.
  { by rewrite solve_without_inequalities by auto. }
  destruct G as [g|], h as [hv|].
  2-4: left; rewrite solve_without_inequalities by auto;
       unfold result, trace; simpl; rewrite <- (app_nil_r (notice _));
       rewrite calls_notice; auto.
  right. rewrite solve_with_inequalities. cbv zeta.
  destruct (qpSWIFT_run E _ _ (prepared st verbose opts))
    as [st1 reply] eqn:Hrun.
  unfold trace, result. simpl. rewrite calls_notice. simpl.
  eexists _, _, _. repeat split; [done..|].
  rewrite Hrun. by destruct reply.
Qed.

(** C2.  When the backend's result carries an exit flag that differs from
    0, the adapter returns [None] (whatever the result's ["sol"] entry is,
    which is not read), in the store the backend left. *)
Theorem nonzero_exit_flag_returns_None
    P q G h A b initvals verbose opts st args kwargs stc st1 res flag :
  let x := qpswift_solve_qp E P q G h A b initvals verbose opts st in
  In (Call args kwargs stc) (trace x) →
  qpSWIFT_run E args kwargs stc = (st1, Return res) →
  exit_flag E st1 res = Return flag →
  differs_from_zero E flag = Return true →
  result x = Return VNone ∧ final_store x = st1.
Proof.
  intros x Hin Hrun Hflag Hnz.
  apply call_in_trace in Hin as [Hst Hres]. fold x in Hst, Hres.
  rewrite Hrun in Hst, Hres. split; [|done].
  rewrite Hres. unfold translated. by rewrite Hflag, Hnz.
Qed.

(** C3.  When the backend's result carries an exit flag equal to 0 and a
    solution [s] under ["sol"], the adapter returns [s] itself, in the store
    the backend left. *)
Theorem zero_exit_flag_returns_solution
    P q G h A b initvals verbose opts st args kwargs stc st1 res flag s :
  let x := qpswift_solve_qp E P q G h A b initvals verbose opts st in
  In (Call args kwargs stc) (trace x) →
  qpSWIFT_run E args kwargs stc = (st1, Return res) →
  exit_flag E st1 res = Return flag →
  differs_from_zero E flag = Return false →
  subscript E st1 res sol = Return s →
  result x = Return s ∧ final_store x = st1.
Proof.
  intros x Hin Hrun Hflag Hnz Hsol.
  apply call_in_trace in Hin as [Hst Hres]. fold x in Hst, Hres.
  rewrite Hrun in Hst, Hres. split; [|done].
  rewrite Hres. unfold translated. by rewrite Hflag, Hnz.
Qed.

(** C4.  With [G], [h], [A] and [b] all present the adapter calls the
    backend once, with the seven positional arguments
    [q, h, P, G, A, b, opts] in this order and no keyword argument; [opts]
    is the options object (the caller's dictionary when there is one). *)
Theorem full_positional_call P q g hv a bv initvals verbose opts st :
  let x := qpswift_solve_qp E P q (Some g) (Some hv) (Some a) (Some bv)
             initvals verbose opts st in
  let call := Call [VArray q; VArray hv; VArray P; VArray g;
                    VArray a; VArray bv; VRef (options_object st opts)]
                   [] (prepared st verbose opts) in
  trace x = notice initvals ++ [call] ∧ calls (trace x) = [call].
Proof.
  cbv zeta. rewrite solve_with_inequalities. cbv zeta.
  destruct (qpSWIFT_run _ _ _ _) as [st1 reply]. unfold trace. simpl.
  by rewrite calls_notice.
Qed.

(** C5.  With [G] and [h] present and neither [A] nor [b], the adapter calls
    the backend once, with the four positional arguments [q, h, P, G] and
    the options object under the keyword [opts]: no argument stands for the
    equality constraints. *)
Theorem keyword_call_without_equalities P q g hv initvals verbose opts st :
  let x := qpswift_solve_qp E P q (Some g) (Some hv) None None
             initvals verbose opts st in
  let call := Call [VArray q; VArray hv; VArray P; VArray g]
                   [(opts_kw, VRef (options_object st opts))]
                   (prepared st verbose opts) in
  trace x = notice initvals ++ [call] ∧ calls (trace x) = [call].
Proof.
  cbv zeta. rewrite solve_with_inequalities. cbv zeta.
  destruct (qpSWIFT_run _ _ _ _) as [st1 reply]. unfold trace. simpl.
  by rewrite calls_notice.
Qed.

(** C6.  Whenever the backend is reached ([G] and [h] present), the
    dictionary it receives as options holds, at the time of the call, the
    caller's entries (none when the caller gave no dictionary) overwritten
    with [OUTPUT = 1] and [VERBOSE = 1] or [0] as [verbose] is true or
    false: the two reserved keys have these values whatever the caller put
    under them, every other key is the caller's, and without a caller's
    dictionary the two reserved entries are all there is. *)
Theorem reserved_keys_are_forced P q g hv A b initvals verbose opts st :
  let x := qpswift_solve_qp E P q (Some g) (Some hv) A b
             initvals verbose opts st in
  let o := options_object st opts in
  let stc := prepared st verbose opts in
  let flag := VInt (if verbose then 1 else 0) in
  (∃ args kwargs,
     calls (trace x) = [Call args kwargs stc] ∧
     (args, kwargs) = call_args P q g hv A b o ∧
     (last args = Some (VRef o) ∨ kwargs = [(opts_kw, VRef o)])) ∧
  stc !!! o = with_reserved verbose (caller_options st opts) ∧
  (stc !!! o) !! OUTPUT = Some (VInt 1) ∧
  (stc !!! o) !! VERBOSE = Some flag ∧
  (∀ key, key ≠ OUTPUT → key ≠ VERBOSE →
     (stc !!! o) !! key = caller_options st opts !! key) ∧
  prepared st verbose None !!! options_object st None
    = <[VERBOSE := flag]> {[OUTPUT := VInt 1]}.
Proof.
  cbv zeta. rewrite !prepared_options. repeat split.
  - rewrite solve_with_inequalities. cbv zeta.
    destruct (qpSWIFT_run _ _ _ _) as [st1 reply]. unfold trace. simpl.
    rewrite calls_notice.
    eexists _, _. split; [reflexivity|]. split; [by destruct (call_args _ _ _ _ _ _ _)|].
    destruct A, b; simpl; auto.
  - unfold with_reserved. by rewrite lookup_insert_ne, lookup_insert_eq.
  - unfold with_reserved. by rewrite lookup_insert_eq.
  - intros key H1 H2. unfold with_reserved.
    by rewrite !lookup_insert_ne.
Qed.

(** C7.  A run with a warm-start vector and the run without it (all else
    equal) end with the same result in the same store after the same
    backend call; the warm-start vector only puts the notice in front of
    the trace. *)
Theorem initvals_only_prints_notice P q G h A b x0 verbose opts st :
  let cold := qpswift_solve_qp E P q G h A b None verbose opts st in
  let warm := qpswift_solve_qp E P q G h A b (Some x0) verbose opts st in
  result warm = result cold ∧
  final_store warm = final_store cold ∧
  calls (trace warm) = calls (trace cold) ∧
  trace warm = Printed warm_start_note :: trace cold.
Proof.
  cbv zeta. destruct G as [g|], h as [hv|].
  2-4: by rewrite !solve_without_inequalities by auto.
  rewrite !solve_with_inequalities. cbv zeta.
  by destruct (qpSWIFT_run _ _ _ _) as [st1 reply].
Qed.

(** C8.  With only one of [G] and [h] present the adapter does exactly what
    it does with neither: it raises the same [NotImplementedError], with the
    same store and trace, and the backend is not called. *)
Theorem partial_inequality_pair_not_implemented
    P q g hv A b initvals verbose opts st :
  let neither := qpswift_solve_qp E P q None None A b initvals verbose opts st in
  qpswift_solve_qp E P q (Some g) None A b initvals verbose opts st = neither ∧
  qpswift_solve_qp E P q None (Some hv) A b initvals verbose opts st = neither ∧
  result neither = Raise (NotImplementedError wip_message) ∧
  calls (trace neither) = [].
Proof.
  cbv zeta. rewrite !solve_without_inequalities by auto.
  repeat split. by destruct initvals.
Qed.

(** C9.  With [G] and [h] present and only one of [A] and [b], the adapter
    does exactly what it does without equality constraints: the same
    keyword call of the backend, the same result and store, and a trace with
    nothing more in it (the matrix or vector supplied is dropped). *)
Theorem partial_equality_pair_dropped
    P q g hv a bv initvals verbose opts st :
  let without := qpswift_solve_qp E P q (Some g) (Some hv) None None
                   initvals verbose opts st in
  qpswift_solve_qp E P q (Some g) (Some hv) (Some a) None
    initvals verbose opts st = without ∧
  qpswift_solve_qp E P q (Some g) (Some hv) None (Some bv)
    initvals verbose opts st = without ∧
  trace without =
    notice initvals ++
    [Call [VArray q; VArray hv; VArray P; VArray g]
          [(opts_kw, VRef (options_object st opts))]
          (prepared st verbose opts)].
Proof.
  cbv zeta. rewrite !solve_with_inequalities. cbv zeta. simpl.
  by destruct (qpSWIFT_run _ _ _ _) as [st1 reply].
Qed.

(** C10.  On the error path ([G] or [h] missing) with a dictionary [d] of
    the caller as options: the adapter raises [NotImplementedError] without
    calling the backend, and yet leaves [d] with the two reserved keys
    written over the caller's entries; [d] is changed as soon as its
    [OUTPUT] entry was not already 1. *)
Theorem error_path_mutates_caller_options
    P q G h A b initvals verbose d st :
  G = None ∨ h = None →
  let x := qpswift_solve_qp E P q G h A b initvals verbose (Some d) st in
  result x = Raise (NotImplementedError wip_message) ∧
  calls (trace x) = [] ∧
  final_store x !!! d = with_reserved verbose (st !!! d) ∧
  (final_store x !!! d) !! OUTPUT = Some (VInt 1) ∧
  (final_store x !!! d) !! VERBOSE = Some (VInt (if verbose then 1 else 0)) ∧
  ((st !!! d) !! OUTPUT ≠ Some (VInt 1) → final_store x !!! d ≠ st !!! d).
Proof.
  intros HGh x. unfold x. rewrite solve_without_inequalities by done.
  unfold result, trace, final_store. simpl.
  pose proof (prepared_options st verbose (Some d)) as Hd. simpl in Hd.
  rewrite Hd. unfold with_reserved. repeat split.
  - by destruct initvals.
  - by rewrite lookup_insert_ne, lookup_insert_eq.
  - by rewrite lookup_insert_eq.
  - intros Hold Heq. apply Hold. rewrite <- Heq.
    by rewrite lookup_insert_ne, lookup_insert_eq.
Qed.

End Contract.

(** ** The contract on concrete runs *)

(** The example of the specification: [P = [[2,0],[0,2]]], [q = [-2,-5]],
    [G = [[1,0]]], [h = [1]], no equality constraint, [verbose = False];
    the backend is called in the keyword form with the options
    [{OUTPUT: 1, VERBOSE: 0}] and its solution [[1, 2.5]] is returned. *)
Example solved_run :
  trace Demo.solved = [Call Demo.args Demo.kwargs Demo.call_store] ∧
  Demo.call_store !!! 2%positive
    = (<[VERBOSE := VInt 0]> {[OUTPUT := VInt 1]} : dict Demo.array) ∧
  result Demo.solved = Return (VArray [[1; 2.5]]%float).
Proof. vm_compute. auto. Qed.

(** The refused run leaves the caller's [{"MAXITER": 30, "OUTPUT": 2}] as
    [{"MAXITER": 30, "OUTPUT": 1, "VERBOSE": 1}]. *)
Example refused_run :
  result Demo.refused = Raise (NotImplementedError wip_message) ∧
  trace Demo.refused = [Printed warm_start_note] ∧
  final_store Demo.refused !!! 1%positive
    = (<[VERBOSE := VInt 1]> (<[OUTPUT := VInt 1]>
         {[Demo.MAXITER := VInt 30]}) : dict Demo.array).
Proof. vm_compute. auto. Qed.

(** C1, counterexample to "every other failure surfaces as [None]": when
    the backend raises, say a [ValueError] for arrays it does not accept,
    the run with [G] and [h] present ends with that error, which is neither
    the [NotImplementedError] nor a returned [None]. *)
Lemma backend_error_is_raised_not_None :
  result (Demo.run_with Demo.rejects) = Raise (OtherError "ValueError") ∧
  result (Demo.run_with Demo.rejects)
    ≠ Raise (NotImplementedError wip_message) ∧
  result (Demo.run_with Demo.rejects) ≠ Return VNone.
Proof. vm_compute. repeat split; discriminate. Qed.

Lemma nonzero_exit_flag_returns_None_witness :
  In (Call Demo.args Demo.kwargs Demo.call_store) (trace Demo.failed) ∧
  qpSWIFT_run (Demo.backend (VInt 2)) Demo.args Demo.kwargs Demo.call_store
    = (Demo.reply_store (VInt 2), Return (VRef 4%positive)) ∧
  exit_flag (Demo.backend (VInt 2)) (Demo.reply_store (VInt 2))
    (VRef 4%positive) = Return (VInt 2) ∧
  differs_from_zero (Demo.backend (VInt 2)) (VInt 2) = Return true ∧
  result Demo.failed = Return VNone ∧
  final_store Demo.failed = Demo.reply_store (VInt 2).
Proof.
  assert (In (Call Demo.args Demo.kwargs Demo.call_store) (trace Demo.failed))
    as Hin by (vm_compute; left; reflexivity).
  assert (qpSWIFT_run (Demo.backend (VInt 2))
            Demo.args Demo.kwargs Demo.call_store
          = (Demo.reply_store (VInt 2), Return (VRef 4%positive)))
    as Hrun by (vm_compute; reflexivity).
  assert (exit_flag (Demo.backend (VInt 2)) (Demo.reply_store (VInt 2))
            (VRef 4%positive) = Return (VInt 2))
    as Hflag by (vm_compute; reflexivity).
  assert (differs_from_zero (Demo.backend (VInt 2)) (VInt 2) = Return true)
    as Hnz by reflexivity.
  split; [exact Hin|]. split; [exact Hrun|].
  split; [exact Hflag|]. split; [exact Hnz|].
  exact (nonzero_exit_flag_returns_None (Demo.backend (VInt 2))
           Demo.P Demo.q (Some Demo.G) (Some Demo.h) None None None false
           None ∅ _ _ _ _ _ _ Hin Hrun Hflag Hnz).
Defined.

Lemma zero_exit_flag_returns_solution_witness :
  In (Call Demo.args Demo.kwargs Demo.call_store) (trace Demo.solved) ∧
  qpSWIFT_run (Demo.backend (VInt 0)) Demo.args Demo.kwargs Demo.call_store
    = (Demo.reply_store (VInt 0), Return (VRef 4%positive)) ∧
  exit_flag (Demo.backend (VInt 0)) (Demo.reply_store (VInt 0))
    (VRef 4%positive) = Return (VInt 0) ∧
  differs_from_zero (Demo.backend (VInt 0)) (VInt 0) = Return false ∧
  subscript (Demo.backend (VInt 0)) (Demo.reply_store (VInt 0))
    (VRef 4%positive) sol = Return (VArray Demo.x) ∧
  result Demo.solved = Return (VArray Demo.x) ∧
  final_store Demo.solved = Demo.reply_store (VInt 0).
Proof.
  assert (In (Call Demo.args Demo.kwargs Demo.call_store) (trace Demo.solved))
    as Hin by (vm_compute; left; reflexivity).
  assert (qpSWIFT_run (Demo.backend (VInt 0))
            Demo.args Demo.kwargs Demo.call_store
          = (Demo.reply_store (VInt 0), Return (VRef 4%positive)))
    as Hrun by (vm_compute; reflexivity).
  assert (exit_flag (Demo.backend (VInt 0)) (Demo.reply_store (VInt 0))
            (VRef 4%positive) = Return (VInt 0))
    as Hflag by (vm_compute; reflexivity).
  assert (differs_from_zero (Demo.backend (VInt 0)) (VInt 0) = Return false)
    as Hnz by reflexivity.
  assert (subscript (Demo.backend (VInt 0)) (Demo.reply_store (VInt 0))
            (VRef 4%positive) sol = Return (VArray Demo.x))
    as Hsol by (vm_compute; reflexivity).
  split; [exact Hin|]. split; [exact Hrun|].
  split; [exact Hflag|]. split; [exact Hnz|]. split; [exact Hsol|].
  exact (zero_exit_flag_returns_solution (Demo.backend (VInt 0))
           Demo.P Demo.q (Some Demo.G) (Some Demo.h) None None None false
           None ∅ _ _ _ _ _ _ _ Hin Hrun Hflag Hnz Hsol).
Defined.

Lemma error_path_mutates_caller_options_witness :
  ((None : option Demo.array) = None ∨ Some Demo.h = None) ∧
  result Demo.refused = Raise (NotImplementedError wip_message) ∧
  calls (trace Demo.refused) = [] ∧
  final_store Demo.refused !!! 1%positive
    = with_reserved true (Demo.caller_store !!! 1%positive) ∧
  (final_store Demo.refused !!! 1%positive) !! OUTPUT = Some (VInt 1) ∧
  (final_store Demo.refused !!! 1%positive) !! VERBOSE = Some (VInt 1) ∧
  ((Demo.caller_store !!! 1%positive) !! OUTPUT ≠ Some (VInt 1) →
   final_store Demo.refused !!! 1%positive ≠ Demo.caller_store !!! 1%positive).
Proof.
  split.
  - left. reflexivity.
  - exact (error_path_mutates_caller_options (Demo.backend (VInt 0))
             Demo.P Demo.q None (Some Demo.h) None None (Some Demo.x0) true
             1%positive Demo.caller_store (or_introl eq_refl)).
Defined.

(** ** Beyond the contract: what else the code does *)

Section Beyond.
Context {ndarray : Type} (E : externals ndarray).
Implicit Types (P q : ndarray) (G h A b initvals : option ndarray).
Implicit Types (st : store ndarray) (opts : option loc) (verbose : bool).

Lemma call_is_prepared P q G h A b initvals verbose opts st args kwargs stc :
  In (Call args kwargs stc)
     (trace (qpswift_solve_qp E P q G h A b initvals verbose opts st)) →
  stc = prepared st verbose opts.
Proof.
  destruct G as [g|], h as [hv|].
  2-4: rewrite solve_without_inequalities by auto;
       intros []%no_call_in_notice.
  rewrite solve_with_inequalities. cbv zeta.
  destruct (qpSWIFT_run E _ _ _) as [st1 reply]. unfold trace. simpl.
  intros [[]%no_call_in_notice|[Hc|[]]]%in_app_or. by injection Hc.
Qed.

Lemma prepared_frame st verbose opts d :
  d ∈ dom st → opts ≠ Some d →
  prepared st verbose opts !! d = st !! d.
Proof.
  intros Hd Hopts.
  assert (d ≠ fresh (dom st)) as Hne0.
  { intros ->. by apply (is_fresh (dom st)). }
  unfold prepared. cbv zeta. destruct opts as [d'|]; simpl.
  - rewrite lookup_insert_ne by congruence. by rewrite lookup_insert_ne.
  - assert (d ∈ dom (<[fresh (dom st) := ∅]> st)) as Hd1.
    { rewrite dom_insert_L. set_solver. }
    assert (d ≠ fresh (dom (<[fresh (dom st) := ∅]> st))) as Hne1.
    { intros Heq. rewrite Heq in Hd1 at 1. by apply is_fresh in Hd1. }
    by rewrite !lookup_insert_ne.
Qed.

Lemma with_reserved_twice verbose1 verbose2 (m : dict ndarray) :
  with_reserved verbose2 (with_reserved verbose1 m) = with_reserved verbose2 m.
Proof.
  unfold with_reserved. apply map_eq. intros key.
  destruct (decide (key = VERBOSE)) as [->|Hv];
    [|destruct (decide (key = OUTPUT)) as [->|Ho]];
    by simplify_map_eq.
Qed.

(** X1.  An exception of the backend is not caught: when [qpSWIFT.run]
    raises, the adapter raises the same exception, in the store the
    backend left. *)
Theorem backend_exception_propagates
    P q G h A b initvals verbose opts st args kwargs stc st1 e :
  let x := qpswift_solve_qp E P q G h A b initvals verbose opts st in
  In (Call args kwargs stc) (trace x) →
  qpSWIFT_run E args kwargs stc = (st1, Raise e) →
  result x = Raise e ∧ final_store x = st1.
Proof.
  intros x Hin Hrun.
  apply call_in_trace in Hin as [Hst Hres]. fold x in Hst, Hres.
  by rewrite Hrun in Hst, Hres.
Qed.

(** X2.  When the backend returns a dictionary without ["basicInfo"], the
    adapter raises [KeyError("basicInfo")]. *)
Theorem missing_basicInfo_is_KeyError
    P q G h A b initvals verbose opts st args kwargs stc st1 r :
  let x := qpswift_solve_qp E P q G h A b initvals verbose opts st in
  In (Call args kwargs stc) (trace x) →
  qpSWIFT_run E args kwargs stc = (st1, Return (VRef r)) →
  (st1 !!! r) !! basicInfo = None →
  result x = Raise (KeyError basicInfo).
Proof.
  intros x Hin Hrun Hkey.
  apply call_in_trace in Hin as [_ Hres]. fold x in Hres.
  rewrite Hrun in Hres. rewrite Hres.
  unfold translated, exit_flag, subscript. by rewrite Hkey.
Qed.

(** X3.  When the ["basicInfo"] dictionary of the backend's result has no
    ["ExitFlag"], the adapter raises [KeyError("ExitFlag")]. *)
Theorem missing_ExitFlag_is_KeyError
    P q G h A b initvals verbose opts st args kwargs stc st1 r i :
  let x := qpswift_solve_qp E P q G h A b initvals verbose opts st in
  In (Call args kwargs stc) (trace x) →
  qpSWIFT_run E args kwargs stc = (st1, Return (VRef r)) →
  (st1 !!! r) !! basicInfo = Some (VRef i) →
  (st1 !!! i) !! ExitFlag = None →
  result x = Raise (KeyError ExitFlag).
Proof.
  intros x Hin Hrun Hinfo Hkey.
  apply call_in_trace in Hin as [_ Hres]. fold x in Hres.
  rewrite Hrun in Hres. rewrite Hres.
  unfold translated, exit_flag, subscript. by rewrite Hinfo, Hkey.
Qed.

(** X4.  When the backend reports the exit flag 0 in a result without
    ["sol"], the adapter raises [KeyError("sol")]: the solution is looked up
    only after the exit flag is found to be 0. *)
Theorem missing_sol_is_KeyError
    P q G h A b initvals verbose opts st args kwargs stc st1 r flag :
  let x := qpswift_solve_qp E P q G h A b initvals verbose opts st in
  In (Call args kwargs stc) (trace x) →
  qpSWIFT_run E args kwargs stc = (st1, Return (VRef r)) →
  exit_flag E st1 (VRef r) = Return flag →
  differs_from_zero E flag = Return false →
  (st1 !!! r) !! sol = None →
  result x = Raise (KeyError sol).
Proof.
  intros x Hin Hrun Hflag Hnz Hkey.
  apply call_in_trace in Hin as [_ Hres]. fold x in Hres.
  rewrite Hrun in Hres. rewrite Hres.
  unfold translated. rewrite Hflag, Hnz. unfold subscript. by rewrite Hkey.
Qed.

(** X5.  When the backend returns something that is neither a dictionary
    nor an array ([None], a number, a string), the adapter raises
    [TypeError]: the result cannot be subscripted. *)
Theorem unsubscriptable_result_is_TypeError
    P q G h A b initvals verbose opts st args kwargs stc st1 res :
  let x := qpswift_solve_qp E P q G h A b initvals verbose opts st in
  In (Call args kwargs stc) (trace x) →
  qpSWIFT_run E args kwargs stc = (st1, Return res) →
  match res with VRef _ | VArray _ => False | _ => True end →
  result x = Raise TypeError.
Proof.
  intros x Hin Hrun Hres'.
  apply call_in_trace in Hin as [_ Hres]. fold x in Hres.
  rewrite Hrun in Hres. rewrite Hres.
  by destruct res.
Qed.

(** X6.  The backend is called when and only when both [G] and [h] are
    given, and never more than once. *)
Theorem backend_called_iff_inequalities
    P q G h A b initvals verbose opts st :
  let x := qpswift_solve_qp E P q G h A b initvals verbose opts st in
  (calls (trace x) = [] ↔ G = None ∨ h = None) ∧
  length (calls (trace x)) ≤ 1.
Proof.
  cbv zeta. destruct G as [g|], h as [hv|].
  2-4: rewrite solve_without_inequalities by auto; unfold trace; simpl;
       rewrite <- (app_nil_r (notice _)), calls_notice; simpl;
       split; [split; auto | lia].
  rewrite solve_with_inequalities. cbv zeta.
  destruct (qpSWIFT_run E _ _ _) as [st1 reply]. unfold trace. simpl.
  rewrite calls_notice. simpl. split; [|lia].
  split; [discriminate | intros [|]; discriminate].
Qed.

(** X7.  The adapter writes to no dictionary but the one it is given as
    options: a dictionary [d] of the store that is not passed as [opts] is,
    at the backend call, and at the end of a run without a call, as it
    was. *)
Theorem other_dictionaries_untouched
    P q G h A b initvals verbose opts st d :
  let x := qpswift_solve_qp E P q G h A b initvals verbose opts st in
  d ∈ dom st → opts ≠ Some d →
  (∀ args kwargs stc, In (Call args kwargs stc) (trace x) → stc !! d = st !! d) ∧
  (calls (trace x) = [] → final_store x !! d = st !! d).
Proof.
  intros x Hd Hopts. split.
  - intros args kwargs stc ->%call_is_prepared. by apply prepared_frame.
  - unfold x. destruct G as [g|], h as [hv|].
    2-4: rewrite solve_without_inequalities by auto; intros _;
         by apply prepared_frame.
    rewrite solve_with_inequalities. cbv zeta.
    destruct (qpSWIFT_run E _ _ _) as [st1 reply]. unfold trace. simpl.
    rewrite calls_notice. discriminate.
Qed.

(** X8.  Without a dictionary from the caller, the options the backend
    receives are a new object: not a dictionary of the caller's store, and
    not the one made for the initial value of [result]. *)
Theorem default_options_are_a_new_object
    P q g hv A b initvals verbose st :
  let x := qpswift_solve_qp E P q (Some g) (Some hv) A b
             initvals verbose None st in
  let o := options_object st None in
  calls (trace x) =
    [Call (call_args P q g hv A b o).1 (call_args P q g hv A b o).2
          (prepared st verbose None)] ∧
  (o ∉ dom st) ∧ (o ≠ fresh (dom st)).
Proof.
  cbv zeta. split; [|split].
  - rewrite solve_with_inequalities. cbv zeta.
    destruct (qpSWIFT_run E _ _ _) as [st1 reply]. unfold trace. simpl.
    by rewrite calls_notice.
  - simpl. intros Hin.
    assert (fresh (dom (<[fresh (dom st) := ∅]> st))
              ∈ dom (<[fresh (dom st) := ∅]> st)) as Hd1.
    { rewrite dom_insert_L at 2. set_solver. }
    by apply is_fresh in Hd1.
  - simpl. intros Heq.
    assert (fresh (dom st) ∈ dom (<[fresh (dom st) := ∅]> st)) as Hd1.
    { rewrite dom_insert_L. set_solver. }
    rewrite <- Heq in Hd1 at 1. by apply is_fresh in Hd1.
Qed.

(** X9.  Using one dictionary as options for two refused calls in a row
    leaves it as the second call alone would: the reserved keys are written
    again, the later [verbose] wins, and a second call with the same
    [verbose] changes nothing more. *)
Theorem refused_twice_as_once
    P q G h A b initvals verbose1 verbose2 d st :
  G = None ∨ h = None →
  let once := qpswift_solve_qp E P q G h A b initvals verbose1 (Some d) st in
  let twice := qpswift_solve_qp E P q G h A b initvals verbose2 (Some d)
                 (final_store once) in
  final_store twice !!! d = with_reserved verbose2 (st !!! d) ∧
  (verbose1 = verbose2 → final_store twice !!! d = final_store once !!! d).
Proof.
  intros HGh once twice. unfold twice, once.
  rewrite !solve_without_inequalities by done.
  unfold final_store. simpl.
  pose proof (prepared_options st verbose1 (Some d)) as H1.
  pose proof (prepared_options (prepared st verbose1 (Some d)) verbose2 (Some d))
    as H2.
  simpl in H1, H2. rewrite H2, H1, with_reserved_twice.
  split; [done|]. by intros ->.
Qed.

(** X10.  The reserved keys stay in the caller's dictionary after a call
    that reached the backend too: when the backend leaves that dictionary
    as it received it, the caller finds it with the reserved keys written
    over its entries. *)
Theorem options_stay_written_after_call
    P q G h A b initvals verbose d st args kwargs stc :
  let x := qpswift_solve_qp E P q G h A b initvals verbose (Some d) st in
  In (Call args kwargs stc) (trace x) →
  (qpSWIFT_run E args kwargs stc).1 !!! d = stc !!! d →
  final_store x !!! d = with_reserved verbose (st !!! d).
Proof.
  intros x Hin Hkeep. unfold x in *.
  pose proof (call_is_prepared _ _ _ _ _ _ _ _ _ _ _ _ _ Hin) as ->.
  apply call_in_trace in Hin as [Hst _].
  rewrite Hst, Hkeep.
  exact (prepared_options st verbose (Some d)).
Qed.

End Beyond.

(** ** The same on concrete runs *)

Lemma backend_exception_propagates_witness :
  In (Call Demo.args Demo.kwargs Demo.call_store)
     (trace (Demo.run_with Demo.rejects)) ∧
  qpSWIFT_run (Demo.replying Demo.rejects)
    Demo.args Demo.kwargs Demo.call_store
    = (Demo.call_store, Raise (OtherError "ValueError")) ∧
  result (Demo.run_with Demo.rejects) = Raise (OtherError "ValueError") ∧
  final_store (Demo.run_with Demo.rejects) = Demo.call_store.
Proof.
  assert (In (Call Demo.args Demo.kwargs Demo.call_store)
             (trace (Demo.run_with Demo.rejects)))
    as Hin by (vm_compute; left; reflexivity).
  assert (qpSWIFT_run (Demo.replying Demo.rejects)
            Demo.args Demo.kwargs Demo.call_store
          = (Demo.call_store, Raise (OtherError "ValueError")))
    as Hrun by reflexivity.
  split; [exact Hin|]. split; [exact Hrun|].
  exact (backend_exception_propagates (Demo.replying Demo.rejects)
           Demo.P Demo.q (Some Demo.G) (Some Demo.h) None None None false
           None ∅ _ _ _ _ _ Hin Hrun).
Defined.

Lemma missing_basicInfo_is_KeyError_witness :
  In (Call Demo.args Demo.kwargs Demo.call_store)
     (trace (Demo.run_with Demo.bare)) ∧
  qpSWIFT_run (Demo.replying Demo.bare) Demo.args Demo.kwargs Demo.call_store
    = ((Demo.bare Demo.call_store).1, Return (VRef 3%positive)) ∧
  ((Demo.bare Demo.call_store).1 !!! 3%positive) !! basicInfo = None ∧
  result (Demo.run_with Demo.bare) = Raise (KeyError basicInfo).
Proof.
  assert (In (Call Demo.args Demo.kwargs Demo.call_store)
             (trace (Demo.run_with Demo.bare)))
    as Hin by (vm_compute; left; reflexivity).
  assert (qpSWIFT_run (Demo.replying Demo.bare)
            Demo.args Demo.kwargs Demo.call_store
          = ((Demo.bare Demo.call_store).1, Return (VRef 3%positive)))
    as Hrun by (vm_compute; reflexivity).
  assert (((Demo.bare Demo.call_store).1 !!! 3%positive) !! basicInfo = None)
    as Hkey by (vm_compute; reflexivity).
  split; [exact Hin|]. split; [exact Hrun|]. split; [exact Hkey|].
  exact (missing_basicInfo_is_KeyError (Demo.replying Demo.bare)
           Demo.P Demo.q (Some Demo.G) (Some Demo.h) None None None false
           None ∅ _ _ _ _ _ Hin Hrun Hkey).
Defined.

Lemma missing_ExitFlag_is_KeyError_witness :
  In (Call Demo.args Demo.kwargs Demo.call_store)
     (trace (Demo.run_with Demo.flagless)) ∧
  qpSWIFT_run (Demo.replying Demo.flagless)
    Demo.args Demo.kwargs Demo.call_store
    = ((Demo.flagless Demo.call_store).1, Return (VRef 4%positive)) ∧
  ((Demo.flagless Demo.call_store).1 !!! 4%positive) !! basicInfo
    = Some (VRef 3%positive) ∧
  ((Demo.flagless Demo.call_store).1 !!! 3%positive) !! ExitFlag = None ∧
  result (Demo.run_with Demo.flagless) = Raise (KeyError ExitFlag).
Proof.
  assert (In (Call Demo.args Demo.kwargs Demo.call_store)
             (trace (Demo.run_with Demo.flagless)))
    as Hin by (vm_compute; left; reflexivity).
  assert (qpSWIFT_run (Demo.replying Demo.flagless)
            Demo.args Demo.kwargs Demo.call_store
          = ((Demo.flagless Demo.call_store).1, Return (VRef 4%positive)))
    as Hrun by (vm_compute; reflexivity).
  assert (((Demo.flagless Demo.call_store).1 !!! 4%positive) !! basicInfo
          = Some (VRef 3%positive))
    as Hinfo by (vm_compute; reflexivity).
  assert (((Demo.flagless Demo.call_store).1 !!! 3%positive) !! ExitFlag = None)
    as Hkey by (vm_compute; reflexivity).
  split; [exact Hin|]. split; [exact Hrun|].
  split; [exact Hinfo|]. split; [exact Hkey|].
  exact (missing_ExitFlag_is_KeyError (Demo.replying Demo.flagless)
           Demo.P Demo.q (Some Demo.G) (Some Demo.h) None None None false
           None ∅ _ _ _ _ _ _ Hin Hrun Hinfo Hkey).
Defined.

Lemma missing_sol_is_KeyError_witness :
  In (Call Demo.args Demo.kwargs Demo.call_store)
     (trace (Demo.run_with Demo.unsolved)) ∧
  qpSWIFT_run (Demo.replying Demo.unsolved)
    Demo.args Demo.kwargs Demo.call_store
    = ((Demo.unsolved Demo.call_store).1, Return (VRef 4%positive)) ∧
  exit_flag (Demo.replying Demo.unsolved) (Demo.unsolved Demo.call_store).1
    (VRef 4%positive) = Return (VInt 0) ∧
  differs_from_zero (Demo.replying Demo.unsolved) (VInt 0) = Return false ∧
  ((Demo.unsolved Demo.call_store).1 !!! 4%positive) !! sol = None ∧
  result (Demo.run_with Demo.unsolved) = Raise (KeyError sol).
Proof.
  assert (In (Call Demo.args Demo.kwargs Demo.call_store)
             (trace (Demo.run_with Demo.unsolved)))
    as Hin by (vm_compute; left; reflexivity).
  assert (qpSWIFT_run (Demo.replying Demo.unsolved)
            Demo.args Demo.kwargs Demo.call_store
          = ((Demo.unsolved Demo.call_store).1, Return (VRef 4%positive)))
    as Hrun by (vm_compute; reflexivity).
  assert (exit_flag (Demo.replying Demo.unsolved)
            (Demo.unsolved Demo.call_store).1 (VRef 4%positive)
          = Return (VInt 0))
    as Hflag by (vm_compute; reflexivity).
  assert (differs_from_zero (Demo.replying Demo.unsolved) (VInt 0)
          = Return false)
    as Hnz by reflexivity.
  assert (((Demo.unsolved Demo.call_store).1 !!! 4%positive) !! sol = None)
    as Hkey by (vm_compute; reflexivity).
  split; [exact Hin|]. split; [exact Hrun|]. split; [exact Hflag|].
  split; [exact Hnz|]. split; [exact Hkey|].
  exact (missing_sol_is_KeyError (Demo.replying Demo.unsolved)
           Demo.P Demo.q (Some Demo.G) (Some Demo.h) None None None false
           None ∅ _ _ _ _ _ _ Hin Hrun Hflag Hnz Hkey).
Defined.

Lemma unsubscriptable_result_is_TypeError_witness :
  In (Call Demo.args Demo.kwargs Demo.call_store)
     (trace (Demo.run_with Demo.nothing)) ∧
  qpSWIFT_run (Demo.replying Demo.nothing)
    Demo.args Demo.kwargs Demo.call_store
    = (Demo.call_store, Return VNone) ∧
  result (Demo.run_with Demo.nothing) = Raise TypeError.
Proof.
  assert (In (Call Demo.args Demo.kwargs Demo.call_store)
             (trace (Demo.run_with Demo.nothing)))
    as Hin by (vm_compute; left; reflexivity).
  assert (qpSWIFT_run (Demo.replying Demo.nothing)
            Demo.args Demo.kwargs Demo.call_store
          = (Demo.call_store, Return VNone))
    as Hrun by reflexivity.
  split; [exact Hin|]. split; [exact Hrun|].
  exact (unsubscriptable_result_is_TypeError (Demo.replying Demo.nothing)
           Demo.P Demo.q (Some Demo.G) (Some Demo.h) None None None false
           None ∅ _ _ _ _ _ Hin Hrun I).
Defined.

Lemma other_dictionaries_untouched_witness :
  5%positive ∈ dom Demo.two_dicts ∧
  Some 1%positive ≠ Some 5%positive ∧
  (∀ args kwargs stc,
     In (Call args kwargs stc) (trace Demo.kept) →
     stc !! 5%positive = Demo.two_dicts !! 5%positive) ∧
  (calls (trace Demo.kept) = [] →
   final_store Demo.kept !! 5%positive = Demo.two_dicts !! 5%positive).
Proof.
  assert (5%positive ∈ dom Demo.two_dicts) as Hd.
  { apply elem_of_dom. vm_compute. eauto. }
  assert (Some 1%positive ≠ Some 5%positive) as Hne by discriminate.
  split; [exact Hd|]. split; [exact Hne|].
  exact (other_dictionaries_untouched (Demo.backend (VInt 0))
           Demo.P Demo.q (Some Demo.G) (Some Demo.h) (Some Demo.A)
           (Some Demo.b) None true (Some 1%positive) Demo.two_dicts
           5%positive Hd Hne).
Defined.

Lemma refused_twice_as_once_witness :
  ((None : option Demo.array) = None ∨ Some Demo.h = None) ∧
  final_store
    (qpswift_solve_qp (Demo.backend (VInt 0)) Demo.P Demo.q None
       (Some Demo.h) None None (Some Demo.x0) false (Some 1%positive)
       (final_store Demo.refused)) !!! 1%positive
    = with_reserved false (Demo.caller_store !!! 1%positive) ∧
  (true = false →
   final_store
     (qpswift_solve_qp (Demo.backend (VInt 0)) Demo.P Demo.q None
        (Some Demo.h) None None (Some Demo.x0) false (Some 1%positive)
        (final_store Demo.refused)) !!! 1%positive
     = final_store Demo.refused !!! 1%positive).
Proof.
  split.
  - left. reflexivity.
  - exact (refused_twice_as_once (Demo.backend (VInt 0))
             Demo.P Demo.q None (Some Demo.h) None None (Some Demo.x0)
             true false 1%positive Demo.caller_store (or_introl eq_refl)).
Defined.

Lemma options_stay_written_after_call_witness :
  In (Call [VArray Demo.q; VArray Demo.h; VArray Demo.P; VArray Demo.G;
            VArray Demo.A; VArray Demo.b; VRef 1%positive] []
           (prepared Demo.two_dicts true (Some 1%positive)))
     (trace Demo.kept) ∧
  (qpSWIFT_run (Demo.backend (VInt 0))
     [VArray Demo.q; VArray Demo.h; VArray Demo.P; VArray Demo.G;
      VArray Demo.A; VArray Demo.b; VRef 1%positive] []
     (prepared Demo.two_dicts true (Some 1%positive))).1 !!! 1%positive
    = prepared Demo.two_dicts true (Some 1%positive) !!! 1%positive ∧
  final_store Demo.kept !!! 1%positive
    = with_reserved true (Demo.two_dicts !!! 1%positive).
Proof.
  assert (In (Call [VArray Demo.q; VArray Demo.h; VArray Demo.P;
                    VArray Demo.G; VArray Demo.A; VArray Demo.b;
                    VRef 1%positive] []
                   (prepared Demo.two_dicts true (Some 1%positive)))
             (trace Demo.kept))
    as Hin by (vm_compute; left; reflexivity).
  assert ((qpSWIFT_run (Demo.backend (VInt 0))
             [VArray Demo.q; VArray Demo.h; VArray Demo.P; VArray Demo.G;
              VArray Demo.A; VArray Demo.b; VRef 1%positive] []
             (prepared Demo.two_dicts true (Some 1%positive))).1 !!! 1%positive
          = prepared Demo.two_dicts true (Some 1%positive) !!! 1%positive)
    as Hkeep by (vm_compute; reflexivity).
  split; [exact Hin|]. split; [exact Hkeep|].
  exact (options_stay_written_after_call (Demo.backend (VInt 0))
           Demo.P Demo.q (Some Demo.G) (Some Demo.h) (Some Demo.A)
           (Some Demo.b) None true 1%positive Demo.two_dicts _ _ _
           Hin Hkeep).
Defined.
